(** * TaskLock: the incremental build script [build_incremental.py]

    The script is a static table of thirteen build steps, two placeholder
    actions that only print, and a [main] that prints the table.  This
    development embeds the table and the three functions and checks the
    catalog invariants and the reporting behaviour against them. *)

From Stdlib Require Import Ascii String DecimalString.
From stdpp Require Import base list strings.

Local Open Scope string_scope.

(** ** A small model of the Python operations the script uses *)

Module Py.

(** [str(i)] as an f-string renders it, for a non-negative [int]. *)
Definition str_of_nat (n : nat) : string :=
  NilZero.string_of_uint (Nat.to_uint n).

(** [sep.join(xs)] *)
Fixpoint join (sep : string) (xs : list string) : string :=
  match xs with
  | [] => ""
  | x :: rest =>
      match rest with
      | [] => x
      | _ :: _ => x +:+ sep +:+ join sep rest
      end
  end.

(** [s * n] on strings *)
Fixpoint repeat_str (s : string) (n : nat) : string :=
  match n with
  | O => ""
  | S k => s +:+ repeat_str s k
  end.

(** [enumerate(xs, start)] *)
Fixpoint enumerate {A : Type} (xs : list A) (start : nat) : list (nat * A) :=
  match xs with
  | [] => []
  | x :: rest => (start, x) :: enumerate rest (S start)
  end.

(** The line feed that the escape [\n] denotes in a Python literal. *)
Definition nl : string := String "010" "".

End Py.

(** ** The step table *)

(** Every entry of [BUILD_STEPS] is a dict literal with the same three keys,
    ["name"], ["files"] and ["frameworks"]; it is used as a struct. *)
Record Step : Type := mkStep {
  name : string;
  files : list string;
  frameworks : list string
}.

Definition BUILD_STEPS : list Step := [
  mkStep "Step 1: SwiftUI + Models"
    ["TaskLockApp.swift"; "ContentView.swift"; "Models.swift"]
    ["SwiftUI"];
  mkStep "Step 2: Add PersistenceController"
    ["TaskLockApp.swift"; "ContentView.swift"; "Models.swift"; "PersistenceController.swift"]
    ["SwiftUI"];
  mkStep "Step 3: Add Combine Framework"
    ["TaskLockApp.swift"; "ContentView.swift"; "Models.swift"; "PersistenceController.swift"]
    ["SwiftUI"; "Combine"];
  mkStep "Step 4: Add NotificationManager"
    ["TaskLockApp.swift"; "ContentView.swift"; "Models.swift"; "PersistenceController.swift"; "NotificationManager.swift"]
    ["SwiftUI"; "Combine"; "UserNotifications"];
  mkStep "Step 5: Add TaskManager"
    ["TaskLockApp.swift"; "ContentView.swift"; "Models.swift"; "PersistenceController.swift"; "NotificationManager.swift"; "TaskManager.swift"]
    ["SwiftUI"; "Combine"; "UserNotifications"];
  mkStep "Step 6: Add BlockingManager"
    ["TaskLockApp.swift"; "ContentView.swift"; "Models.swift"; "PersistenceController.swift"; "NotificationManager.swift"; "TaskManager.swift"; "BlockingManager.swift"]
    ["SwiftUI"; "Combine"; "UserNotifications"; "FamilyControls"; "ManagedSettings"; "DeviceActivity"];
  mkStep "Step 7: Add PolicyEngine"
    ["TaskLockApp.swift"; "ContentView.swift"; "Models.swift"; "PersistenceController.swift"; "NotificationManager.swift"; "TaskManager.swift"; "BlockingManager.swift"; "PolicyEngine.swift"]
    ["SwiftUI"; "Combine"; "UserNotifications"; "FamilyControls"; "ManagedSettings"; "DeviceActivity"];
  mkStep "Step 8: Add AnalyticsManager"
    ["TaskLockApp.swift"; "ContentView.swift"; "Models.swift"; "PersistenceController.swift"; "NotificationManager.swift"; "TaskManager.swift"; "BlockingManager.swift"; "PolicyEngine.swift"; "AnalyticsManager.swift"]
    ["SwiftUI"; "Combine"; "UserNotifications"; "FamilyControls"; "ManagedSettings"; "DeviceActivity"];
  mkStep "Step 9: Add PhysicalUnlockManager"
    ["TaskLockApp.swift"; "ContentView.swift"; "Models.swift"; "PersistenceController.swift"; "NotificationManager.swift"; "TaskManager.swift"; "BlockingManager.swift"; "PolicyEngine.swift"; "AnalyticsManager.swift"; "PhysicalUnlockManager.swift"]
    ["SwiftUI"; "Combine"; "UserNotifications"; "FamilyControls"; "ManagedSettings"; "DeviceActivity"];
  mkStep "Step 10: Add AppState"
    ["TaskLockApp.swift"; "ContentView.swift"; "Models.swift"; "PersistenceController.swift"; "NotificationManager.swift"; "TaskManager.swift"; "BlockingManager.swift"; "PolicyEngine.swift"; "AnalyticsManager.swift"; "PhysicalUnlockManager.swift"; "AppState.swift"]
    ["SwiftUI"; "Combine"; "UserNotifications"; "FamilyControls"; "ManagedSettings"; "DeviceActivity"];
  mkStep "Step 11: Add Charts Framework"
    ["TaskLockApp.swift"; "ContentView.swift"; "Models.swift"; "PersistenceController.swift"; "NotificationManager.swift"; "TaskManager.swift"; "BlockingManager.swift"; "PolicyEngine.swift"; "AnalyticsManager.swift"; "PhysicalUnlockManager.swift"; "AppState.swift"]
    ["SwiftUI"; "Combine"; "UserNotifications"; "FamilyControls"; "ManagedSettings"; "DeviceActivity"; "Charts"];
  mkStep "Step 12: Add MainTabView"
    ["TaskLockApp.swift"; "ContentView.swift"; "Models.swift"; "PersistenceController.swift"; "NotificationManager.swift"; "TaskManager.swift"; "BlockingManager.swift"; "PolicyEngine.swift"; "AnalyticsManager.swift"; "PhysicalUnlockManager.swift"; "AppState.swift"; "MainTabView.swift"]
    ["SwiftUI"; "Combine"; "UserNotifications"; "FamilyControls"; "ManagedSettings"; "DeviceActivity"; "Charts"];
  mkStep "Step 13: Add All View Components"
    ["TaskLockApp.swift"; "ContentView.swift"; "Models.swift"; "PersistenceController.swift"; "NotificationManager.swift"; "TaskManager.swift"; "BlockingManager.swift"; "PolicyEngine.swift"; "AnalyticsManager.swift"; "PhysicalUnlockManager.swift"; "AppState.swift"; "MainTabView.swift"; "TaskViews.swift"; "AddEditTaskViews.swift"; "CategoryViews.swift"; "AnalyticsViews.swift"; "SettingsViews.swift"; "BlockingOverlay.swift"]
    ["SwiftUI"; "Combine"; "UserNotifications"; "FamilyControls"; "ManagedSettings"; "DeviceActivity"; "Charts"]
].

(** The step the script numbers [i]: [enumerate(BUILD_STEPS, 1)] pairs the
    entry at list position [i - 1] with [i]; there is no step 0. *)
Definition step_no (i : nat) : option Step :=
  match i with
  | O => None
  | S k => BUILD_STEPS !! k
  end.

(** ** Relations between neighbouring entries of a list *)

Section Consecutive.
Context {A : Type} (R : A -> A -> Prop).

(** [R] holds between every entry and the one right after it. *)
Fixpoint consecutive (l : list A) : Prop :=
  match l with
  | [] => True
  | x :: tl =>
      match tl with
      | [] => True
      | y :: _ => R x y /\ consecutive tl
      end
  end.

End Consecutive.

(** The files (resp. frameworks) of a step reappear, in the same order, at
    the front of those of the next step. *)
Definition files_grow (s t : Step) : Prop := files s `prefix_of` files t.
Definition frameworks_grow (s t : Step) : Prop :=
  frameworks s `prefix_of` frameworks t.

(** A step that changes something: its files or its frameworks are not
    those of the step before. *)
Definition changes (s t : Step) : Prop :=
  files s <> files t \/ frameworks s <> frameworks t.

(** The increment between two item lists: the items of [cur], in order, that
    [prev] does not have. *)
Definition increment (prev cur : list string) : list string :=
  filter (fun x => x ∉ prev) cur.

(** ** Effects

    What a run of the script can do to its surroundings.  The module imports
    [os], [subprocess] and [sys]; printing is the only action that the three
    functions take, and the other actions are listed so that their absence
    can be stated. *)
Inductive effect : Type :=
| Print (text : string)
| WriteFile (path content : string)
| RunProcess (argv : list string).

Definition is_print (e : effect) : bool :=
  match e with
  | Print _ => true
  | _ => false
  end.

(** The state a function runs in: the actions taken so far, oldest first, and
    the list object that the module-level name [BUILD_STEPS] is bound to,
    together with the dicts it holds. *)
Record World : Type := mkWorld {
  trace : list effect;
  global_BUILD_STEPS : list Step
}.

(** The state right after the module body has run. *)
Definition module_loaded : World := mkWorld [] BUILD_STEPS.

Definition Prog (A : Type) : Type := World -> A * World.

Definition ret {A : Type} (a : A) : Prog A := fun w => (a, w).

Definition bind {A B : Type} (m : Prog A) (k : A -> Prog B) : Prog B :=
  fun w => let (a, w') := m w in k a w'.

Declare Scope prog_scope.
Delimit Scope prog_scope with prog.
Notation "x <- m ;; k" := (bind m (fun x => k))
  (at level 100, m at next level, right associativity) : prog_scope.
Notation "m ;; k" := (bind m (fun _ => k))
  (at level 100, right associativity) : prog_scope.

(** [print(text)]: one line on standard output. *)
Definition print (text : string) : Prog unit :=
  fun w => (tt, mkWorld (trace w ++ [Print text]) (global_BUILD_STEPS w)).

(** Reading the global name [BUILD_STEPS]. *)
Definition load_BUILD_STEPS : Prog (list Step) :=
  fun w => (global_BUILD_STEPS w, w).

(** [for x in xs: body(x)] *)
Fixpoint for_each {A : Type} (xs : list A) (body : A -> Prog unit) : Prog unit :=
  match xs with
  | [] => ret tt
  | x :: rest => (body x ;; for_each rest body)%prog
  end.

(** What is on standard output after the actions of a trace. *)
Fixpoint stdout (t : list effect) : string :=
  match t with
  | [] => ""
  | Print text :: rest => text +:+ Py.nl +:+ stdout rest
  | _ :: rest => stdout rest
  end.

(** ** The three functions of the script

    A function that falls off its end returns [None]: the result type is
    [unit]. *)

Definition update_project_file (step : Step) : Prog unit :=
  print ("Updating project for " +:+ name step).

Definition test_build : Prog unit :=
  print "Testing build...".

(** The iterable of the [for] statement is evaluated once, before the first
    iteration; the body takes the pair apart as [i, step]. *)
Definition main : Prog unit :=
  (print "TaskLock Incremental Build Script" ;;
   print (Py.repeat_str "=" 40) ;;
   steps <- load_BUILD_STEPS ;;
   for_each (Py.enumerate steps 1) (fun '(i, step) =>
     print (Py.nl +:+ Py.str_of_nat i +:+ ". " +:+ name step) ;;
     print ("   Files: " +:+ Py.join ", " (files step)) ;;
     print ("   Frameworks: " +:+ Py.join ", " (frameworks step))))%prog.

(** ** The report, as the specification words it

    Three lines for the step at 1-based position [i]: position and name
    (after an empty line), the files, the frameworks. *)
Definition step_report (i : nat) (s : Step) : list string :=
  [ Py.nl +:+ Py.str_of_nat i +:+ ". " +:+ name s;
    "   Files: " +:+ Py.join ", " (files s);
    "   Frameworks: " +:+ Py.join ", " (frameworks s) ].

Definition header : list string :=
  [ "TaskLock Incremental Build Script";
    "========================================" ].

Definition report (steps : list Step) : list string :=
  header ++ concat (imap (fun k s => step_report (S k) s) steps).

(** A program that does nothing but print: it leaves the binding of
    [BUILD_STEPS] as it was and only adds [Print] actions to the trace. *)
Definition prints_only {A : Type} (p : Prog A) : Prop :=
  forall w,
    global_BUILD_STEPS (p w).2 = global_BUILD_STEPS w
    /\ exists new, trace (p w).2 = (trace w ++ new)%list
                   /\ forallb is_print new = true.

(** ** The module body

    The assignment [BUILD_STEPS = [...]] at module level: it rebinds the
    global name, whatever it was bound to. *)
Definition assign_BUILD_STEPS (steps : list Step) : Prog unit :=
  fun w => (tt, mkWorld (trace w) steps).

(** Running the module from top to bottom: the imports and the three [def]s
    take no action, the table is assigned, and [main] is called under the
    guard [if __name__ == "__main__"].  [dunder_name] is the value that the
    interpreter gives [__name__]: ["__main__"] for a script, the module's
    own name for an import. *)
Definition module_body (dunder_name : string) : Prog unit :=
  (assign_BUILD_STEPS BUILD_STEPS ;;
   if String.eqb dunder_name "__main__" then main else ret tt)%prog.

(** ** Measuring the output text *)

(** How many line feeds a text holds, that is how many lines a terminal
    shows for it. *)
Fixpoint newlines (s : string) : nat :=
  match s with
  | EmptyString => 0
  | String c rest => (if Ascii.eqb c "010" then 1 else 0) + newlines rest
  end.

(** A step none of whose strings holds a line feed. *)
Definition one_line_step (s : Step) : Prop :=
  newlines (name s) = 0
  /\ Forall (fun f => newlines f = 0) (files s)
  /\ Forall (fun f => newlines f = 0) (frameworks s).

(** * Properties *)

(** ** Neighbouring entries *)

Section ConsecutiveFacts.
Context {A : Type} (R : A -> A -> Prop).

Lemma consecutive_lookup (l : list A) :
  consecutive R l ->
  forall k x y, l !! k = Some x -> l !! S k = Some y -> R x y.
Proof.
  induction l as [|a [|b tl] IH]; intros Hc k x y Hx Hy.
  - discriminate.
  - destruct k; discriminate.
  - destruct Hc as [Hab Htl].
    destruct k as [|k].
    + injection Hx as <-. injection Hy as <-. exact Hab.
    + exact (IH Htl k x y Hx Hy).
Qed.

End ConsecutiveFacts.

Lemma step_no_neighbours (i : nat) (s t : Step) :
  1 < i -> step_no (i - 1) = Some s -> step_no i = Some t ->
  exists k, BUILD_STEPS !! k = Some s /\ BUILD_STEPS !! S k = Some t.
Proof.
  intros Hi Hs Ht.
  destruct i as [|[|k]]; [lia | lia |].
  exists k. simpl in Hs, Ht. split; assumption.
Qed.

(** [step_no] is the numbering that [main] uses. *)
Lemma elem_of_enumerate {A : Type} (l : list A) (n i : nat) (x : A) :
  (i, x) ∈ Py.enumerate l n <-> exists k, i = n + k /\ l !! k = Some x.
Proof.
  revert n. induction l as [|a l IH]; intros n; simpl.
  - split; [intros H; inversion H | intros (k & _ & Hk); discriminate].
  - rewrite elem_of_cons, IH. split.
    + intros [Heq | (k & -> & Hk)].
      * injection Heq as -> ->. exists 0. split; [lia | reflexivity].
      * exists (S k). split; [lia | exact Hk].
    + intros ([|k] & -> & Hk).
      * left. injection Hk as ->. f_equal. lia.
      * right. exists k. split; [lia | exact Hk].
Qed.

Lemma step_no_enumerate (i : nat) (s : Step) :
  step_no i = Some s <-> (i, s) ∈ Py.enumerate BUILD_STEPS 1.
Proof.
  rewrite elem_of_enumerate. split.
  - destruct i as [|k]; [discriminate |]. intros H. exists k. split; [lia | exact H].
  - intros (k & -> & Hk). exact Hk.
Qed.

(** ** The catalog *)

Lemma files_chain : consecutive files_grow BUILD_STEPS.
Proof. vm_compute. repeat split; eexists; reflexivity. Qed.

Lemma frameworks_chain : consecutive frameworks_grow BUILD_STEPS.
Proof. vm_compute. repeat split; eexists; reflexivity. Qed.

Lemma prefix_incl (l1 l2 : list string) : l1 `prefix_of` l2 -> l1 ⊆ l2.
Proof. intros [extra ->] x Hx. apply elem_of_app. left; exact Hx. Qed.

(** C1: for every step i > 1 the files of step i-1 are, in order, a prefix of
    the files of step i (hence every file of step i-1 is a file of step i),
    and the files of the first step are not empty. *)
Theorem files_monotone :
  (forall i s t, 1 < i -> step_no (i - 1) = Some s -> step_no i = Some t ->
     files s `prefix_of` files t /\ files s ⊆ files t)
  /\ (exists s, step_no 1 = Some s /\ files s <> []).
Proof.
  split.
  - intros i s t Hi Hs Ht.
    destruct (step_no_neighbours i s t Hi Hs Ht) as (k & Hk & HSk).
    pose proof (consecutive_lookup files_grow _ files_chain k s t Hk HSk) as Hp.
    split; [exact Hp | exact (prefix_incl _ _ Hp)].
  - eexists. split; [reflexivity | discriminate].
Qed.

Lemma files_monotone_witness :
  exists s t, step_no 12 = Some s /\ step_no 13 = Some t
              /\ files s `prefix_of` files t /\ files s ⊆ files t.
Proof.
  eexists _, _. split; [reflexivity |]. split; [reflexivity |].
  apply (proj1 files_monotone 13); [lia | reflexivity | reflexivity].
Defined.

(** C2: for every step i > 1 the frameworks of step i-1 are, in order, a
    prefix of the frameworks of step i (hence every framework of step i-1 is
    one of step i), and the frameworks of the first step are not empty. *)
Theorem frameworks_monotone :
  (forall i s t, 1 < i -> step_no (i - 1) = Some s -> step_no i = Some t ->
     frameworks s `prefix_of` frameworks t /\ frameworks s ⊆ frameworks t)
  /\ (exists s, step_no 1 = Some s /\ frameworks s <> []).
Proof.
  split.
  - intros i s t Hi Hs Ht.
    destruct (step_no_neighbours i s t Hi Hs Ht) as (k & Hk & HSk).
    pose proof (consecutive_lookup frameworks_grow _ frameworks_chain k s t Hk HSk) as Hp.
    split; [exact Hp | exact (prefix_incl _ _ Hp)].
  - eexists. split; [reflexivity | discriminate].
Qed.

Lemma frameworks_monotone_witness :
  exists s t, step_no 5 = Some s /\ step_no 6 = Some t
              /\ frameworks s `prefix_of` frameworks t /\ frameworks s ⊆ frameworks t.
Proof.
  eexists _, _. split; [reflexivity |]. split; [reflexivity |].
  apply (proj1 frameworks_monotone 6); [lia | reflexivity | reflexivity].
Defined.

(** C3: the catalog is not empty and has 13 steps; the step at every 1-based
    position i is named "Step i:..." (so the numbers in the names are
    1, 2, ..., 13 in this order, without gap or repeat). *)
Theorem step_names_numbered :
  BUILD_STEPS <> []
  /\ length BUILD_STEPS = 13
  /\ (forall i s, step_no i = Some s ->
        1 <= i <= 13
        /\ exists rest, name s = "Step " +:+ Py.str_of_nat i +:+ ":" +:+ rest).
Proof.
  split; [discriminate |]. split; [reflexivity |].
  intros i s Hs.
  assert (Hi : 1 <= i <= 13).
  { destruct i as [|k]; [discriminate |]. simpl in Hs.
    apply lookup_lt_Some in Hs. simpl in Hs. lia. }
  split; [exact Hi |].
  destruct i as [|k]; [discriminate |]. simpl in Hs.
  do 13 (destruct k as [|k];
         [injection Hs as <-; eexists; vm_compute; reflexivity |]).
  lia.
Qed.

Lemma step_names_numbered_witness :
  exists s, step_no 10 = Some s
            /\ exists rest, name s = "Step " +:+ Py.str_of_nat 10 +:+ ":" +:+ rest.
Proof.
  eexists. split; [reflexivity |].
  apply (proj2 (proj2 step_names_numbered) 10). reflexivity.
Defined.

(** C4 as stated, refuted: the files lists of steps 9 and 10 are not the
    same list. *)
Lemma files_9_10_not_identical :
  ~ (forall s t, step_no 9 = Some s -> step_no 10 = Some t -> files s = files t).
Proof.
  intros H. specialize (H _ _ eq_refl eq_refl). discriminate H.
Qed.

(** C4, amended: between steps 9 and 10 the frameworks list stays the same,
    and the files list of step 10 is that of step 9 followed by
    AppState.swift and nothing else. *)
Theorem steps_9_10_differ_by_AppState (s t : Step) :
  step_no 9 = Some s -> step_no 10 = Some t ->
  frameworks s = frameworks t
  /\ files t = (files s ++ ["AppState.swift"])%list
  /\ increment (files s) (files t) = ["AppState.swift"]
  /\ increment (frameworks s) (frameworks t) = [].
Proof.
  intros Hs Ht. injection Hs as <-. injection Ht as <-.
  repeat split; vm_compute; reflexivity.
Qed.

Lemma steps_9_10_differ_by_AppState_witness :
  exists s t, step_no 9 = Some s /\ step_no 10 = Some t
              /\ frameworks s = frameworks t
              /\ files t = (files s ++ ["AppState.swift"])%list.
Proof.
  eexists _, _. split; [reflexivity |]. split; [reflexivity |].
  pose proof (steps_9_10_differ_by_AppState _ _ eq_refl eq_refl) as (Hf & Hs & _).
  split; [exact Hf | exact Hs].
Defined.

Lemma changes_chain : consecutive changes BUILD_STEPS.
Proof.
  vm_compute. repeat split; first [left; discriminate | right; discriminate].
Qed.

(** C5: no step repeats its predecessor: two consecutive steps differ in
    their files list or in their frameworks list. *)
Theorem no_noop_step (i : nat) (s t : Step) :
  1 < i -> step_no (i - 1) = Some s -> step_no i = Some t ->
  files s <> files t \/ frameworks s <> frameworks t.
Proof.
  intros Hi Hs Ht.
  destruct (step_no_neighbours i s t Hi Hs Ht) as (k & Hk & HSk).
  exact (consecutive_lookup changes _ changes_chain k s t Hk HSk).
Qed.

Lemma no_noop_step_witness :
  exists s t, step_no 10 = Some s /\ step_no 11 = Some t
              /\ (files s <> files t \/ frameworks s <> frameworks t).
Proof.
  eexists _, _. split; [reflexivity |]. split; [reflexivity |].
  apply (no_noop_step 11); [lia | reflexivity | reflexivity].
Defined.

Lemma entries_distinct :
  Forall (fun s => NoDup (files s) /\ NoDup (frameworks s)) BUILD_STEPS.
Proof.
  apply (bool_decide_unpack _). vm_compute. exact I.
Qed.

(** C9: within every step of the catalog no file is listed twice and no
    framework is listed twice. *)
Theorem step_entries_distinct (i : nat) (s : Step) :
  step_no i = Some s -> NoDup (files s) /\ NoDup (frameworks s).
Proof.
  destruct i as [|k]; [discriminate |]. simpl. intros Hs.
  exact (proj1 (Forall_lookup _ _) entries_distinct k s Hs).
Qed.

Lemma step_entries_distinct_witness :
  exists s, step_no 13 = Some s /\ NoDup (files s) /\ NoDup (frameworks s).
Proof.
  eexists. split; [reflexivity |].
  apply (step_entries_distinct 13). reflexivity.
Defined.

(** C10: steps 12 and 13 are consecutive steps whose increment of files has
    more than one element: step 13 brings in six files that step 12 does
    not have. *)
Theorem last_increment_not_singleton :
  exists s t, step_no 12 = Some s /\ step_no 13 = Some t
    /\ increment (files s) (files t) =
         ["TaskViews.swift"; "AddEditTaskViews.swift"; "CategoryViews.swift";
          "AnalyticsViews.swift"; "SettingsViews.swift"; "BlockingOverlay.swift"]
    /\ length (increment (files s) (files t)) = 6
    /\ 1 < length (increment (files s) (files t))
    /\ files t = (files s ++ increment (files s) (files t))%list.
Proof.
  eexists _, _. split; [reflexivity |]. split; [reflexivity |].
  repeat split; try (vm_compute; reflexivity).
  vm_compute. lia.
Qed.

(** ** Programs that only print *)

Lemma prints_only_ret {A : Type} (a : A) : prints_only (ret a).
Proof.
  intros w. split; [reflexivity |].
  exists []. split; [symmetry; apply app_nil_r | reflexivity].
Qed.

Lemma prints_only_print (text : string) : prints_only (print text).
Proof.
  intros w. split; [reflexivity |].
  exists [Print text]. split; reflexivity.
Qed.

Lemma prints_only_load : prints_only load_BUILD_STEPS.
Proof.
  intros w. split; [reflexivity |].
  exists []. split; [symmetry; apply app_nil_r | reflexivity].
Qed.

Lemma prints_only_bind {A B : Type} (m : Prog A) (k : A -> Prog B) :
  prints_only m -> (forall a, prints_only (k a)) -> prints_only (bind m k).
Proof.
  intros Hm Hk w. unfold bind.
  destruct (Hm w) as (Hg1 & new1 & Ht1 & Hp1).
  destruct (m w) as [a w1]. simpl in Hg1, Ht1.
  destruct (Hk a w1) as (Hg2 & new2 & Ht2 & Hp2).
  split; [congruence |].
  exists (new1 ++ new2)%list. split.
  - rewrite Ht2, Ht1. symmetry. apply app_assoc.
  - rewrite forallb_app, Hp1, Hp2. reflexivity.
Qed.

Lemma prints_only_for_each {A : Type} (xs : list A) (body : A -> Prog unit) :
  (forall x, prints_only (body x)) -> prints_only (for_each xs body).
Proof.
  intros Hbody. induction xs as [|x rest IH]; simpl.
  - apply prints_only_ret.
  - apply prints_only_bind; [apply Hbody | intros _; exact IH].
Qed.

Lemma main_prints_only : prints_only main.
Proof.
  unfold main.
  repeat first
    [ apply prints_only_print
    | apply prints_only_load
    | apply prints_only_for_each; intros [i step]
    | apply prints_only_bind; [| intros ?] ].
Qed.

(** C6: the script does nothing but print.  [update_project_file] prints one
    line and returns None, [test_build] prints one line and returns None,
    and neither touches the step table or takes any other action; [main]
    leaves [BUILD_STEPS] as it found it, and all it does is print (no file
    is written and no process is run). *)
Theorem script_only_prints :
  (forall step w,
      update_project_file step w =
        (tt, mkWorld (trace w ++ [Print ("Updating project for " +:+ name step)])%list
                     (global_BUILD_STEPS w)))
  /\ (forall w,
        test_build w =
          (tt, mkWorld (trace w ++ [Print "Testing build..."])%list
                       (global_BUILD_STEPS w)))
  /\ (forall w,
        (main w).1 = tt
        /\ global_BUILD_STEPS (main w).2 = global_BUILD_STEPS w
        /\ exists new, trace (main w).2 = (trace w ++ new)%list
                       /\ forallb is_print new = true).
Proof.
  split; [reflexivity |]. split; [reflexivity |].
  intros w. split; [destruct (main w).1; reflexivity |].
  exact (main_prints_only w).
Qed.

(** ** What [main] prints *)

Lemma for_each_report (steps : list Step) (n : nat) (w : World) :
  for_each (Py.enumerate steps n) (fun '(i, step) =>
     print (Py.nl +:+ Py.str_of_nat i +:+ ". " +:+ name step) ;;
     print ("   Files: " +:+ Py.join ", " (files step)) ;;
     print ("   Frameworks: " +:+ Py.join ", " (frameworks step)))%prog w
  = (tt, mkWorld
           (trace w ++ map Print (concat (imap (fun k s => step_report (n + k) s) steps)))%list
           (global_BUILD_STEPS w)).
Proof.
  revert n w. induction steps as [|s rest IH]; intros n w.
  - simpl. unfold ret. rewrite app_nil_r. destruct w; reflexivity.
  - cbn [Py.enumerate for_each imap concat]. unfold bind at 1.
    unfold bind at 1, print at 1. unfold bind at 1, print at 1.
    unfold print at 1. cbn [trace global_BUILD_STEPS].
    rewrite IH. cbn [trace global_BUILD_STEPS]. f_equal. f_equal.
    rewrite map_app, Nat.add_0_r.
    rewrite <- !app_assoc. f_equal. cbn [step_report map app]. do 3 f_equal.
    f_equal. f_equal. apply imap_ext. intros k x _. cbn.
    f_equal. lia.
Qed.

Lemma main_run (w : World) :
  main w = (tt, mkWorld (trace w ++ map Print (report (global_BUILD_STEPS w)))%list
                        (global_BUILD_STEPS w)).
Proof.
  unfold main. unfold bind at 1, print at 1. unfold bind at 1, print at 1.
  unfold bind at 1, load_BUILD_STEPS. cbn [trace global_BUILD_STEPS].
  rewrite for_each_report. cbn [trace global_BUILD_STEPS].
  unfold report. rewrite map_app, <- !app_assoc. reflexivity.
Qed.

Lemma concat_imap_lookup {A B : Type} (f : nat -> A -> list B) (n : nat)
    (l : list A) (k j : nat) (x : A) :
  (forall i y, length (f i y) = n) ->
  l !! k = Some x -> j < n ->
  concat (imap f l) !! (n * k + j) = f k x !! j.
Proof.
  intros Hlen. revert f Hlen k.
  induction l as [|a l IH]; intros f Hlen k Hk Hj; [discriminate |].
  cbn [imap concat]. destruct k as [|k].
  - injection Hk as ->. rewrite Nat.mul_0_r, Nat.add_0_l.
    apply lookup_app_l. rewrite Hlen. exact Hj.
  - simpl in Hk. rewrite lookup_app_r by (rewrite Hlen; lia).
    rewrite Hlen.
    replace (n * S k + j - n) with (n * k + j) by lia.
    apply (IH (f ∘ S)); [intros i y; apply Hlen | exact Hk | exact Hj].
Qed.

Lemma concat_imap_length {A B : Type} (f : nat -> A -> list B) (n : nat)
    (l : list A) :
  (forall i y, length (f i y) = n) -> length (concat (imap f l)) = n * length l.
Proof.
  intros Hlen. revert f Hlen.
  induction l as [|a l IH]; intros f Hlen; cbn [imap concat length].
  - lia.
  - rewrite length_app, Hlen, (IH (f ∘ S)) by (intros i y; apply Hlen). lia.
Qed.

Lemma report_lookup (steps : list Step) (k j : nat) (s : Step) :
  steps !! k = Some s -> j < 3 ->
  report steps !! (2 + 3 * k + j) = step_report (S k) s !! j.
Proof.
  intros Hk Hj. unfold report.
  rewrite lookup_app_r by (simpl; lia).
  replace (2 + 3 * k + j - length header) with (3 * k + j) by (simpl; lia).
  apply (concat_imap_lookup (fun k s => step_report (S k) s) 3);
    [reflexivity | exact Hk | exact Hj].
Qed.

(** The text on standard output for a table that holds only the first step. *)
Example main_stdout_one_step :
  stdout (trace (main (mkWorld [] (take 1 BUILD_STEPS))).2)
  = "TaskLock Incremental Build Script" +:+ Py.nl
    +:+ "========================================" +:+ Py.nl
    +:+ Py.nl +:+ "1. Step 1: SwiftUI + Models" +:+ Py.nl
    +:+ "   Files: TaskLockApp.swift, ContentView.swift, Models.swift" +:+ Py.nl
    +:+ "   Frameworks: SwiftUI" +:+ Py.nl.
Proof. vm_compute. reflexivity. Qed.

(** C7: [main] prints the two header lines and then, for the catalog steps
    in catalog order numbered from 1, three lines each: position and name,
    the files joined by ", ", the frameworks joined by ", ".  The step at
    list position k owns the print calls 2+3k, 2+3k+1 and 2+3k+2, and there
    are 2 + 3 * (number of steps) print calls in all, so that no step is
    reported out of order or twice. *)
Theorem main_reports_catalog (w : World) :
  let steps := global_BUILD_STEPS w in
  main w = (tt, mkWorld (trace w ++ map Print (report steps))%list steps)
  /\ report steps !! 0 = Some "TaskLock Incremental Build Script"
  /\ report steps !! 1 = Some "========================================"
  /\ length (report steps) = 2 + 3 * length steps
  /\ (forall k s, steps !! k = Some s ->
        report steps !! (2 + 3 * k)
          = Some (Py.nl +:+ Py.str_of_nat (S k) +:+ ". " +:+ name s)
        /\ report steps !! (2 + 3 * k + 1)
          = Some ("   Files: " +:+ Py.join ", " (files s))
        /\ report steps !! (2 + 3 * k + 2)
          = Some ("   Frameworks: " +:+ Py.join ", " (frameworks s))).
Proof.
  intros steps. split; [apply main_run |].
  split; [reflexivity |]. split; [reflexivity |]. split.
  - unfold report. rewrite length_app.
    rewrite (concat_imap_length _ 3) by reflexivity. reflexivity.
  - intros k s Hk.
    pose proof (report_lookup steps k 0 s Hk ltac:(lia)) as H0.
    pose proof (report_lookup steps k 1 s Hk ltac:(lia)) as H1.
    pose proof (report_lookup steps k 2 s Hk ltac:(lia)) as H2.
    rewrite Nat.add_0_r in H0. repeat split; assumption.
Qed.

Lemma main_reports_catalog_witness :
  (main module_loaded).2 = mkWorld (map Print (report BUILD_STEPS)) BUILD_STEPS
  /\ report BUILD_STEPS !! (2 + 3 * 2)
       = Some (Py.nl +:+ "3. Step 3: Add Combine Framework")
  /\ report BUILD_STEPS !! (2 + 3 * 2 + 1)
       = Some "   Files: TaskLockApp.swift, ContentView.swift, Models.swift, PersistenceController.swift"
  /\ report BUILD_STEPS !! (2 + 3 * 2 + 2)
       = Some "   Frameworks: SwiftUI, Combine".
Proof.
  pose proof (main_reports_catalog module_loaded) as (Hrun & _ & _ & _ & Hsteps).
  split; [rewrite Hrun; reflexivity |].
  exact (Hsteps 2 _ eq_refl).
Defined.

(** * Further properties of the script *)

(** ** The table as a whole *)

Section ConsecutiveOrder.
Context {A : Type} (R : A -> A -> Prop) `{!Reflexive R} `{!Transitive R}.

(** A relation that is an order and links every entry to its successor links
    every entry to all later ones. *)
Lemma consecutive_le (l : list A) :
  consecutive R l ->
  forall i j x y, i <= j -> l !! i = Some x -> l !! j = Some y -> R x y.
Proof.
  intros Hc i j. induction j as [|j IH]; intros x y Hij Hx Hy.
  - assert (i = 0) as -> by lia. rewrite Hx in Hy. injection Hy as ->. reflexivity.
  - destruct (decide (i = S j)) as [-> | Hne].
    + rewrite Hx in Hy. injection Hy as ->. reflexivity.
    + destruct (lookup_lt_is_Some_2 l j) as [z Hz].
      { apply lookup_lt_Some in Hy. lia. }
      transitivity z.
      * apply IH; [lia | exact Hx | exact Hz].
      * exact (consecutive_lookup R l Hc j z y Hz Hy).
Qed.

End ConsecutiveOrder.

#[local] Instance files_grow_refl : Reflexive files_grow.
Proof. intros s. unfold files_grow. reflexivity. Qed.
#[local] Instance files_grow_trans : Transitive files_grow.
Proof. intros s t u. unfold files_grow. apply transitivity. Qed.
#[local] Instance frameworks_grow_refl : Reflexive frameworks_grow.
Proof. intros s. unfold frameworks_grow. reflexivity. Qed.
#[local] Instance frameworks_grow_trans : Transitive frameworks_grow.
Proof. intros s t u. unfold frameworks_grow. apply transitivity. Qed.

(** X1: the table is cumulative over any distance: for steps i <= j the
    files and the frameworks of step i are, in order, a prefix of those of
    step j, so nothing that an earlier step lists is missing from a later
    one. *)
Theorem steps_cumulative (i j : nat) (s t : Step) :
  i <= j -> step_no i = Some s -> step_no j = Some t ->
  files s `prefix_of` files t /\ frameworks s `prefix_of` frameworks t
  /\ files s ⊆ files t /\ frameworks s ⊆ frameworks t.
Proof.
  intros Hij Hs Ht.
  destruct i as [|i]; [discriminate |]. destruct j as [|j]; [discriminate |].
  simpl in Hs, Ht.
  assert (Hf : files s `prefix_of` files t).
  { apply (consecutive_le files_grow _ files_chain i j); [lia | exact Hs | exact Ht]. }
  assert (Hw : frameworks s `prefix_of` frameworks t).
  { apply (consecutive_le frameworks_grow _ frameworks_chain i j);
      [lia | exact Hs | exact Ht]. }
  repeat split; try assumption; apply prefix_incl; assumption.
Qed.

Lemma steps_cumulative_witness :
  exists s t, step_no 2 = Some s /\ step_no 13 = Some t
              /\ files s `prefix_of` files t /\ frameworks s `prefix_of` frameworks t
              /\ files s ⊆ files t /\ frameworks s ⊆ frameworks t.
Proof.
  eexists _, _. split; [reflexivity |]. split; [reflexivity |].
  apply (steps_cumulative 2 13); [lia | reflexivity | reflexivity].
Defined.

Section FilterAll.
Context {A : Type} (P : A -> Prop) `{!forall x, Decision (P x)}.

Lemma filter_keeps_all (l : list A) : Forall P l -> filter P l = l.
Proof.
  induction 1 as [|x l Hx _ IH]; [reflexivity |].
  rewrite filter_cons_True by exact Hx. f_equal. exact IH.
Qed.

Lemma filter_drops_all (l : list A) : Forall (fun x => ~ P x) l -> filter P l = [].
Proof.
  induction 1 as [|x l Hx _ IH]; [reflexivity |].
  rewrite filter_cons_False by exact Hx. exact IH.
Qed.

End FilterAll.

(** The increment of a duplicate-free list over one of its prefixes is what
    comes after the prefix. *)
Lemma increment_prefix (prev extra : list string) :
  NoDup (prev ++ extra)%list -> increment prev (prev ++ extra)%list = extra.
Proof.
  intros Hnd. apply NoDup_app in Hnd as (_ & Hdisj & _).
  unfold increment. rewrite filter_app.
  rewrite filter_drops_all, filter_keeps_all; [reflexivity | |].
  - apply Forall_forall. intros x Hx Hin. exact (Hdisj x Hin Hx).
  - apply Forall_forall. intros x Hx Hnot. exact (Hnot Hx).
Qed.

Lemma grown_list (prev cur : list string) :
  prev `prefix_of` cur -> NoDup cur ->
  cur = (prev ++ increment prev cur)%list
  /\ length cur = length prev + length (increment prev cur).
Proof.
  intros [extra ->] Hnd. rewrite (increment_prefix _ _ Hnd).
  split; [reflexivity | apply length_app].
Qed.

(** X2: every step after the first adds something and takes nothing away:
    its files are the files of the step before followed by the files that
    are new, likewise its frameworks, and at least one file or framework is
    new, so the number of listed items grows strictly from step to step. *)
Theorem each_step_adds_items (i : nat) (s t : Step) :
  1 < i -> step_no (i - 1) = Some s -> step_no i = Some t ->
  files t = (files s ++ increment (files s) (files t))%list
  /\ frameworks t = (frameworks s ++ increment (frameworks s) (frameworks t))%list
  /\ (increment (files s) (files t) <> []
      \/ increment (frameworks s) (frameworks t) <> [])
  /\ length (files s) + length (frameworks s)
     < length (files t) + length (frameworks t).
Proof.
  intros Hi Hs Ht.
  destruct (step_no_neighbours i s t Hi Hs Ht) as (k & Hk & HSk).
  pose proof (consecutive_lookup files_grow _ files_chain k s t Hk HSk) as Hf.
  pose proof (consecutive_lookup frameworks_grow _ frameworks_chain k s t Hk HSk) as Hw.
  pose proof (consecutive_lookup changes _ changes_chain k s t Hk HSk) as Hch.
  pose proof (proj1 (Forall_lookup _ _) entries_distinct (S k) t HSk) as [Hnf Hnw].
  destruct (grown_list _ _ Hf Hnf) as [Ef Lf].
  destruct (grown_list _ _ Hw Hnw) as [Ew Lw].
  assert (Hnew : increment (files s) (files t) <> []
                 \/ increment (frameworks s) (frameworks t) <> []).
  { destruct Hch as [Hd | Hd]; [left | right]; intros Hnil; apply Hd.
    - rewrite Ef, Hnil. symmetry. apply app_nil_r.
    - rewrite Ew, Hnil. symmetry. apply app_nil_r. }
  split; [exact Ef |]. split; [exact Ew |]. split; [exact Hnew |].
  rewrite Lf, Lw.
  destruct Hnew as [Hn | Hn];
    [destruct (increment (files s) (files t)) | destruct (increment (frameworks s) (frameworks t))];
    try congruence; simpl; lia.
Qed.

Lemma each_step_adds_items_witness :
  exists s t, step_no 5 = Some s /\ step_no 6 = Some t
    /\ files t = (files s ++ increment (files s) (files t))%list
    /\ frameworks t = (frameworks s ++ increment (frameworks s) (frameworks t))%list
    /\ (increment (files s) (files t) <> []
        \/ increment (frameworks s) (frameworks t) <> [])
    /\ length (files s) + length (frameworks s)
       < length (files t) + length (frameworks t).
Proof.
  eexists _, _. split; [reflexivity |]. split; [reflexivity |].
  apply (each_step_adds_items 6); [lia | reflexivity | reflexivity].
Defined.

(** ** Running and importing the module *)

(** X3: importing the module prints nothing and takes no other action: when
    [__name__] is not "__main__" the module body only binds [BUILD_STEPS] to
    the table. *)
Theorem import_is_silent (dunder_name : string) (w : World) :
  dunder_name <> "__main__" ->
  module_body dunder_name w = (tt, mkWorld (trace w) BUILD_STEPS).
Proof.
  intros Hname. unfold module_body, bind, assign_BUILD_STEPS.
  destruct (String.eqb_spec dunder_name "__main__") as [Heq | _];
    [contradiction | reflexivity].
Qed.

Lemma import_is_silent_witness :
  module_body "build_incremental" (mkWorld [] []) = (tt, module_loaded).
Proof.
  apply (import_is_silent "build_incremental" (mkWorld [] [])). discriminate.
Defined.

(** X4: run as a script, the module reports the thirteen steps of its own
    table whatever [BUILD_STEPS] was bound to before: it adds the 41 print
    calls of the report of the table and leaves the name bound to the
    table. *)
Theorem script_run_reports_table (w : World) :
  module_body "__main__" w
    = (tt, mkWorld (trace w ++ map Print (report BUILD_STEPS))%list BUILD_STEPS)
  /\ length (report BUILD_STEPS) = 41.
Proof.
  split; [| reflexivity].
  unfold module_body, bind, assign_BUILD_STEPS. cbn [String.eqb Ascii.eqb Bool.eqb].
  rewrite main_run. reflexivity.
Qed.

(** ** What [main] leaves out *)

Lemma elem_of_concat_imap {A B : Type} (f : nat -> A -> list B) (l : list A) (y : B) :
  y ∈ concat (imap f l) -> exists k x, l !! k = Some x /\ y ∈ f k x.
Proof.
  revert f. induction l as [|a l IH]; intros f; cbn [imap concat].
  - intros H. inversion H.
  - intros [H | H]%elem_of_app.
    + exists 0, a. split; [reflexivity | exact H].
    + destruct (IH _ H) as (k & x & Hk & Hy). exists (S k), x. split; assumption.
Qed.

Lemma elem_of_report (steps : list Step) (line : string) :
  line ∈ report steps ->
  line ∈ header \/ exists k s, steps !! k = Some s /\ line ∈ step_report (S k) s.
Proof.
  unfold report. intros [H | H]%elem_of_app; [left; exact H | right].
  exact (elem_of_concat_imap _ _ _ H).
Qed.

(** X5: [main] never runs the placeholders: whatever the table holds, none
    of the lines it prints is the line of [test_build] or a line of
    [update_project_file]. *)
Theorem main_never_runs_placeholders (w : World) (new : list effect) :
  trace (main w).2 = (trace w ++ new)%list ->
  (Print "Testing build..." ∉ new)
  /\ forall step, Print ("Updating project for " +:+ name step) ∉ new.
Proof.
  rewrite main_run. cbn [snd trace]. intros <-%app_inv_head.
  assert (Hlines : forall line, Print line ∈ map Print (report (global_BUILD_STEPS w)) ->
            line ∈ header
            \/ exists k s, line ∈ step_report (S k) s).
  { intros line (l' & Heq & Hin)%list_elem_of_fmap. injection Heq as ->.
    destruct (elem_of_report _ _ Hin) as [H | (k & s & _ & H)];
      [left; exact H | right; exists k, s; exact H]. }
  split; [| intros step]; intros Hin; apply Hlines in Hin;
    destruct Hin as [Hh | (k & s & Hs)].
  - unfold header in Hh. repeat (apply elem_of_cons in Hh as [Hh | Hh]; [discriminate Hh |]).
    inversion Hh.
  - unfold step_report in Hs.
    repeat (apply elem_of_cons in Hs as [Hs | Hs]; [discriminate Hs |]).
    inversion Hs.
  - unfold header in Hh. repeat (apply elem_of_cons in Hh as [Hh | Hh]; [discriminate Hh |]).
    inversion Hh.
  - unfold step_report in Hs.
    repeat (apply elem_of_cons in Hs as [Hs | Hs]; [discriminate Hs |]).
    inversion Hs.
Qed.

Lemma main_never_runs_placeholders_witness :
  (Print "Testing build..." ∉ map Print (report BUILD_STEPS))
  /\ forall step, Print ("Updating project for " +:+ name step)
                    ∉ map Print (report BUILD_STEPS).
Proof.
  apply (main_never_runs_placeholders module_loaded).
  rewrite main_run. reflexivity.
Defined.

Lemma update_project_file_name (s t : Step) (w : World) :
  update_project_file s w = update_project_file t w -> name s = name t.
Proof.
  unfold update_project_file, print.
  intros H. injection H as H. apply app_inv_head in H.
  injection H as H. cbn in H. repeat (injection H as H). exact H.
Qed.

(** X6: [update_project_file] looks at the name of the step and at nothing
    else: on two steps it does the same exactly when they have the same
    name, whatever their files and frameworks are. *)
Theorem update_project_file_by_name (s t : Step) (w : World) :
  update_project_file s w = update_project_file t w <-> name s = name t.
Proof.
  split; [apply update_project_file_name | intros H].
  unfold update_project_file. rewrite H. reflexivity.
Qed.

(** ** How the report grows and repeats *)

Lemma report_app (steps more : list Step) :
  report (steps ++ more)%list
  = (report steps
     ++ concat (imap (fun k s => step_report (S (length steps + k)) s) more))%list.
Proof.
  unfold report. rewrite imap_app, concat_app, <- app_assoc. reflexivity.
Qed.

(** X7: steps appended to the table only append to what [main] prints: the
    lines for the steps that were there stay as they were, and the new
    steps are reported after them, numbered on from the old length. *)
Theorem main_output_extends (w : World) (more : list Step) :
  trace (main (mkWorld (trace w) (global_BUILD_STEPS w ++ more)%list)).2
  = (trace (main w).2
     ++ map Print (concat (imap
          (fun k s => step_report (S (length (global_BUILD_STEPS w) + k)) s) more)))%list.
Proof.
  rewrite !main_run. cbn [snd trace global_BUILD_STEPS].
  rewrite report_app, map_app, <- app_assoc. reflexivity.
Qed.

(** X8: [main] can be run again: a second run prints the same report after
    the first one, and the table is still bound as before. *)
Theorem main_twice (w : World) :
  (main ;; main)%prog w
  = (tt, mkWorld (trace w ++ map Print (report (global_BUILD_STEPS w)
                                        ++ report (global_BUILD_STEPS w)))%list
                 (global_BUILD_STEPS w)).
Proof.
  unfold bind. rewrite main_run, main_run. cbn [trace global_BUILD_STEPS].
  rewrite map_app, <- app_assoc. reflexivity.
Qed.

(** ** The number of lines on standard output *)

Lemma newlines_app (a b : string) : newlines (a +:+ b) = newlines a + newlines b.
Proof.
  induction a as [|c a IH]; [reflexivity |].
  simpl. rewrite IH. lia.
Qed.

Lemma newlines_uint (d : Decimal.uint) : newlines (NilEmpty.string_of_uint d) = 0.
Proof. induction d; cbn; try assumption; reflexivity. Qed.

Lemma newlines_str_of_nat (n : nat) : newlines (Py.str_of_nat n) = 0.
Proof.
  unfold Py.str_of_nat, NilZero.string_of_uint.
  destruct (Nat.to_uint n); try apply newlines_uint. reflexivity.
Qed.

Lemma newlines_join (sep : string) (xs : list string) :
  newlines sep = 0 -> Forall (fun x => newlines x = 0) xs ->
  newlines (Py.join sep xs) = 0.
Proof.
  intros Hsep. induction 1 as [|x rest Hx Hrest IH]; [reflexivity |].
  cbn [Py.join]. destruct rest as [|y rest']; [exact Hx |].
  rewrite !newlines_app, Hx, Hsep, IH. reflexivity.
Qed.

Lemma newlines_stdout_app (t1 t2 : list effect) :
  newlines (stdout (t1 ++ t2)%list) = newlines (stdout t1) + newlines (stdout t2).
Proof.
  induction t1 as [|e t1 IH]; [reflexivity |].
  destruct e; cbn [app stdout]; rewrite ?newlines_app, IH; lia.
Qed.

Lemma newlines_stdout_prints (lines : list string) :
  newlines (stdout (map Print lines))
  = length lines + sum_list_with newlines lines.
Proof.
  induction lines as [|l lines IH]; [reflexivity |].
  cbn [map stdout length sum_list_with]. rewrite !newlines_app, IH.
  cbn [newlines Py.nl]. cbn. lia.
Qed.

Lemma newlines_step_report (i : nat) (s : Step) :
  one_line_step s -> sum_list_with newlines (step_report i s) = 1.
Proof.
  intros (Hn & Hf & Hw). unfold step_report. cbn [sum_list_with].
  rewrite !newlines_app, newlines_str_of_nat, Hn.
  rewrite !newlines_join by (reflexivity || assumption).
  reflexivity.
Qed.

Lemma newlines_blocks (f : nat -> Step -> list string) (steps : list Step) :
  (forall k s, one_line_step s -> sum_list_with newlines (f k s) = 1) ->
  Forall one_line_step steps ->
  sum_list_with newlines (concat (imap f steps)) = length steps.
Proof.
  intros Hf Hall. revert f Hf.
  induction Hall as [|s steps Hs _ IH]; intros f Hf; [reflexivity |].
  cbn [imap concat length]. rewrite sum_list_with_app, (Hf 0 s Hs).
  rewrite (IH (f ∘ S)) by (intros k s'; apply Hf). reflexivity.
Qed.

(** X9: when no name, file or framework of the table holds a line feed,
    [main] writes exactly 2 + 4 * (number of steps) lines to standard
    output: two header lines, and for every step an empty line and three
    lines of text. *)
Theorem main_stdout_line_count (w : World) :
  Forall one_line_step (global_BUILD_STEPS w) ->
  newlines (stdout (trace (main w).2))
  = newlines (stdout (trace w)) + 2 + 4 * length (global_BUILD_STEPS w).
Proof.
  intros Hall. rewrite main_run. cbn [snd trace].
  rewrite newlines_stdout_app, newlines_stdout_prints.
  unfold report. rewrite length_app, sum_list_with_app.
  rewrite (concat_imap_length _ 3) by reflexivity.
  rewrite newlines_blocks by (intros; apply newlines_step_report; assumption) || exact Hall.
  cbn. lia.
Qed.

Lemma main_stdout_line_count_witness :
  newlines (stdout (trace (main module_loaded).2)) = 54.
Proof.
  apply (main_stdout_line_count module_loaded).
  repeat constructor.
Defined.

(** ** Names and numbers of the table *)

Lemma names_distinct : NoDup (name <$> BUILD_STEPS).
Proof. apply (bool_decide_unpack _). vm_compute. exact I. Qed.

(** X10: [update_project_file] tells the steps of the table apart: for two
    different steps of the table it prints different lines. *)
Theorem update_project_file_identifies_step (i j : nat) (s t : Step) (w : World) :
  step_no i = Some s -> step_no j = Some t -> i <> j ->
  update_project_file s w <> update_project_file t w.
Proof.
  intros Hs Ht Hij Heq. apply Hij. apply update_project_file_name in Heq.
  destruct i as [|i]; [discriminate |]. destruct j as [|j]; [discriminate |].
  simpl in Hs, Ht. f_equal.
  apply (NoDup_lookup (name <$> BUILD_STEPS) i j (name s) names_distinct).
  - rewrite list_lookup_fmap, Hs. reflexivity.
  - rewrite list_lookup_fmap, Ht, Heq. reflexivity.
Qed.

Lemma update_project_file_identifies_step_witness :
  exists s t, step_no 4 = Some s /\ step_no 5 = Some t
              /\ update_project_file s module_loaded
                 <> update_project_file t module_loaded.
Proof.
  eexists _, _. split; [reflexivity |]. split; [reflexivity |].
  apply (update_project_file_identifies_step 4 5); [reflexivity | reflexivity | lia].
Defined.

(** X11: the number that [main] prints in front of a step of the table is
    the number in the step's own name: the first line of the block of the
    step at 1-based position i reads "i. Step i:...", after the line feed. *)
Theorem printed_number_matches_name (i : nat) (s : Step) :
  step_no i = Some s ->
  exists rest,
    report BUILD_STEPS !! (2 + 3 * (i - 1))
    = Some (Py.nl +:+ Py.str_of_nat i +:+ ". Step " +:+ Py.str_of_nat i
            +:+ ":" +:+ rest).
Proof.
  destruct i as [|k]; [discriminate |]. simpl step_no. intros Hs.
  do 13 (destruct k as [|k];
         [injection Hs as <-; eexists; vm_compute; reflexivity |]).
  apply lookup_lt_Some in Hs. simpl in Hs. lia.
Qed.

Lemma printed_number_matches_name_witness :
  exists rest,
    report BUILD_STEPS !! (2 + 3 * (12 - 1))
    = Some (Py.nl +:+ Py.str_of_nat 12 +:+ ". Step " +:+ Py.str_of_nat 12
            +:+ ":" +:+ rest).
Proof.
  eapply (printed_number_matches_name 12). reflexivity.
Defined.
